(** * Anagrams: a shallow embedding of [src/anagrams.py]

    The module groups the words of a newline-delimited word list by a
    canonical key (the word without spaces, lower-cased, its characters
    sorted) and answers look-ups by that key.

    Python values are modelled as follows.
    - [str]: Rocq [string].  A Rocq character is one of the 256 code points
      U+0000..U+00FF, so the model covers Python strings over the Latin-1
      range; [str.lower] is Python's lower-casing on exactly that range.
    - [bytes]: Rocq [string] as well (a sequence of 8-bit values), kept apart
      from text by the constructors of [pyval].
    - [dict]: stdpp's [gmap string (list string)]; only [setdefault] and
      [get] are used by the source, so key order plays no role.
    - exceptions: the type [exn]; a computation that may raise returns an
      [outcome].
    - the file system, the gzip codec and the text codecs are Python's, not
      this module's: they are the fields of a [World]. *)

From Stdlib Require Import String Ascii NArith List Sorted Permutation.
From stdpp Require Import base tactics option list sorting gmap strings.

Local Open Scope string_scope.

(** ** Python built-ins used by the source *)

Module Py.

(** The characters the source names. *)
Definition SPACE : ascii := " "%char.
Definition LF : ascii := "010"%char.

(** [ord c]: the code point of a character. *)
Definition ord (c : ascii) : N := N_of_ascii c.

(** [list(s)] for a string: its one-character strings, in order. *)
Fixpoint list_ (s : string) : list string :=
  match s with
  | EmptyString => []
  | String c s' => String c EmptyString :: list_ s'
  end.

(** [sep.join(l)]. *)
Fixpoint join (sep : string) (l : list string) : string :=
  match l with
  | [] => EmptyString
  | [x] => x
  | x :: l' => x +:+ sep +:+ join sep l'
  end.

(** [sorted(l)] for a list of strings: Python compares strings
    lexicographically by code point, which is [String.le].  Two strings
    that compare equal are the same string, so the sorted list does not
    depend on the sorting algorithm. *)
Definition sorted (l : list string) : list string :=
  merge_sort String.le l.

(** [s.startswith(p)]. *)
Fixpoint startswith (p s : string) : bool :=
  match p, s with
  | EmptyString, _ => true
  | String _ _, EmptyString => false
  | String a p', String b s' => if decide (a = b) then startswith p' s' else false
  end.

(** [s.replace(old, new)] for a non-empty [old]: the occurrences of [old]
    are found from the left and do not overlap.  [skip] counts the
    characters of the current occurrence still to be dropped. *)
Fixpoint replace_from (old new : string) (skip : nat) (s : string) : string :=
  match s with
  | EmptyString => EmptyString
  | String c s' =>
      match skip with
      | S k => replace_from old new k s'
      | O =>
          if startswith old s
          then new +:+ replace_from old new (String.length old - 1) s'
          else String c (replace_from old new 0 s')
      end
  end.

(** With an empty [old], Python puts [new] before every character and at
    the end. *)
Fixpoint replace_empty (new s : string) : string :=
  match s with
  | EmptyString => new
  | String c s' => new +:+ String c (replace_empty new s')
  end.

Definition replace (old new s : string) : string :=
  match old with
  | EmptyString => replace_empty new s
  | String _ _ => replace_from old new 0 s
  end.

(** [c.lower()] on U+0000..U+00FF: A-Z and the accented capitals
    U+00C0..U+00DE, the multiplication sign U+00D7 apart, move up by 32;
    every other character is its own lower case. *)
Definition lower_char (c : ascii) : ascii :=
  let n := ord c in
  if ((65 <=? n) && (n <=? 90) ||
      (192 <=? n) && (n <=? 222) && negb (n =? 215))%N
  then ascii_of_N (n + 32)
  else c.

(** [s.lower()]. *)
Fixpoint lower (s : string) : string :=
  match s with
  | EmptyString => EmptyString
  | String c s' => String (lower_char c) (lower s')
  end.

(** [f.readlines()]: the content cut after every line feed, the line
    feeds kept; a last line without a line feed is a line too. *)
Fixpoint readlines_from (cur : string) (s : string) : list string :=
  match s with
  | EmptyString => match cur with EmptyString => [] | _ => [String.rev cur] end
  | String c s' =>
      if decide (c = LF)
      then String.rev (String c cur) :: readlines_from EmptyString s'
      else readlines_from (String c cur) s'
  end.

Definition readlines (content : string) : list string :=
  readlines_from EmptyString content.

End Py.

(** ** Values, exceptions and the outside world *)

(** The exceptions the module meets.  [OtherError] stands for whatever else
    the gzip reader may raise ([EOFError], [zlib.error], ...). *)
Inductive exn : Type :=
  | BadGzipFile
  | UnicodeDecodeError
  | TypeError
  | UnboundLocalError
  | RuntimeError (msg : string)
  | OtherError (name : string).

Inductive outcome (A : Type) : Type :=
  | Returns (a : A)
  | Raises (e : exn).
Arguments Returns {A} a.
Arguments Raises {A} e.

(** A line handed to the loop of [__post_init__]: [bytes] on the gzip path
    ([gzip.open(path, 'r')] is a binary reader), [str] on the text path. *)
Inductive pyval : Type :=
  | PyBytes (b : string)
  | PyStr (s : string).

(** What Python and the operating system decide.
    - [file_content path]: the bytes of the file, [None] when it cannot be
      opened ([open] and [gzip.open] raise [OSError]);
    - [gunzip data]: what reading the whole gzip stream gives: the
      decompressed bytes, [BadGzipFile], or another exception;
    - [text_decode data]: the text of the file read in text mode (decoded
      with the encoding of the locale, the line ends translated to line
      feeds), [None] for [UnicodeDecodeError];
    - [decode_utf8 b]: [str(b, 'utf-8')], [None] for [UnicodeDecodeError]. *)
Record World : Type := {
  file_content : string → option string;
  gunzip : string → outcome string;
  text_decode : string → option string;
  decode_utf8 : string → option string
}.

(** ** The module *)

(** [f'Unsupported file {words_file_path}'] *)
Definition unsupported (words_file_path : string) : exn :=
  RuntimeError ("Unsupported file " +:+ words_file_path).

(** What [contextlib] raises when a generator yields again after an
    exception was thrown into it. *)
Definition generator_didnt_stop : exn :=
  RuntimeError "generator didn't stop after throw()".

Section ReadFile.
Context {S : Type} (w : World).

(** Lines 13-17, entered with [data] the bytes of the file (the file was
    opened once already, so [open] succeeds): the lines of the text, or
    [RuntimeError] for a [UnicodeDecodeError] of [readlines]. *)
Definition read_plain (words_file_path data : string) : outcome (list pyval) :=
  match text_decode w data with
  | Some text => Returns (PyStr <$> Py.readlines text)
  | None => Raises (unsupported words_file_path)
  end.

(** [with read_file(words_file_path) as words: body], the state [s] being
    what [body] mutates.  The generator runs to its [yield], [body] runs on
    the yielded lines, and an exception of [body] is thrown into the
    generator at that [yield]:
    - line 10: when [gzip.open] raises, [file] is unbound and
      [file.close()] in the [finally] raises [UnboundLocalError];
    - line 11: [readlines] raising [BadGzipFile] enters the handler of
      line 12, any other exception leaves through the [finally];
    - at the [yield] of line 11, [BadGzipFile] from [body] enters the same
      handler, which then yields a second time or raises;
    - at the [yield] of line 15, [UnicodeDecodeError] from [body] is turned
      into [RuntimeError] by line 16. *)
Definition read_file (words_file_path : string)
    (body : list pyval → S → S * outcome unit) (s : S) : S * outcome unit :=
  match file_content w words_file_path with
  | None => (s, Raises UnboundLocalError)
  | Some data =>
      match gunzip w data with
      | Returns raw =>
          match body (PyBytes <$> Py.readlines raw) s with
          | (s', Raises BadGzipFile) =>
              match read_plain words_file_path data with
              | Returns _ => (s', Raises generator_didnt_stop)
              | Raises e => (s', Raises e)
              end
          | r => r
          end
      | Raises BadGzipFile =>
          match read_plain words_file_path data with
          | Returns words =>
              match body words s with
              | (s', Raises UnicodeDecodeError) =>
                  (s', Raises (unsupported words_file_path))
              | r => r
              end
          | Raises e => (s, Raises e)
          end
      | Raises e => (s, Raises e)
      end
  end.
End ReadFile.

(** The dataclass: [words_file_path] and the dictionary [anagrams]. *)
Record Anagrams : Type := {
  words_file_path : string;
  anagrams : gmap string (list string)
}.

(** [anagram_hash(self, word)]; [self] is not used by the method. *)
Definition anagram_hash (word : string) : string :=
  let word := Py.lower (Py.replace " " "" word) in
  Py.join "" (Py.sorted (Py.list_ word)).

(** [self.anagrams.setdefault(key, []).append(word)] *)
Definition setdefault_append (key word : string)
    (d : gmap string (list string)) : gmap string (list string) :=
  <[key := (default [] (d !! key) ++ [word])%list]> d.

Definition store_anagram (self : Anagrams) (word : string) : Anagrams :=
  let word := Py.replace (String Py.LF "") "" word in
  {| words_file_path := words_file_path self;
     anagrams := setdefault_append (anagram_hash word) word (anagrams self) |}.

Definition get_anagrams (self : Anagrams) (word : string) : option (list string) :=
  anagrams self !! anagram_hash word.

Section PostInit.
Context (w : World).

(** [str(word, 'utf-8')]: decoding for [bytes], [TypeError] for a [str]
    ("decoding str is not supported"). *)
Definition str_utf8 (word : pyval) : outcome string :=
  match word with
  | PyBytes b =>
      match decode_utf8 w b with
      | Some s => Returns s
      | None => Raises UnicodeDecodeError
      end
  | PyStr _ => Raises TypeError
  end.

(** Lines 40-44: the [try] whose handler catches [TypeError] only. *)
Definition try_decode (word : pyval) : outcome pyval :=
  match str_utf8 word with
  | Returns s => Returns (PyStr s)
  | Raises TypeError => Returns word
  | Raises e => Raises e
  end.

(** Lines 39-45: the loop over the lines.  [store_anagram] calls
    [str.replace]; on a [bytes] value, which [try_decode] never leaves
    behind, that call would raise [TypeError]. *)
Fixpoint store_words (words : list pyval) (self : Anagrams)
    : Anagrams * outcome unit :=
  match words with
  | [] => (self, Returns tt)
  | word :: rest =>
      match try_decode word with
      | Returns (PyStr s) => store_words rest (store_anagram self s)
      | Returns (PyBytes _) => (self, Raises TypeError)
      | Raises e => (self, Raises e)
      end
  end.

Definition post_init (self : Anagrams) : Anagrams * outcome unit :=
  read_file w (words_file_path self) store_words self.

(** [Anagrams(words_file_path, anagrams)]: the generated [__init__] sets
    the fields and calls [__post_init__]; when that raises, the caller
    receives the exception and no object. *)
Definition init (path : string) (d : gmap string (list string))
    : outcome Anagrams :=
  match post_init {| words_file_path := path; anagrams := d |} with
  | (self, Returns _) => Returns self
  | (_, Raises e) => Raises e
  end.

(** [Anagrams(words_file_path)]: [anagrams] defaults to a new [dict]. *)
Definition new (path : string) : outcome Anagrams := init path ∅.
End PostInit.

(** ** The test fixtures

    [words.txt], [words.txt.gz] and [words.txt.bz2] of the test suite, the
    first with the seven lines the specification lists.  The gzip and bzip2
    files are stood for by their leading bytes; [fixture] decompresses the
    former to the content of [words.txt].  Its decoders accept the byte
    strings below 128, which decode to themselves, and refuse the others;
    on the lines of these files that is what Python does, the bytes 0xFF
    and 0xE9 before a line feed being part of no UTF-8 text. *)
Module Fixture.
Definition nl : string := String Py.LF "".

Definition lines : list string :=
  ["dictionary"; "indicatory"; "tea spoon"; "teaspoon";
   "FooBar"; "foobar"; "A-and-R"].

Definition words_txt : string :=
  Py.join "" ((λ l, l +:+ nl) <$> lines).

Definition words_gz : string :=
  String (ascii_of_nat 31) (String (ascii_of_nat 139) (String (ascii_of_nat 8) "")).

Definition words_bz2 : string :=
  "BZh91AY&SY" +:+ String (ascii_of_nat 255) (String (ascii_of_nat 128) "").

(** A gzip member whose content holds a line that is not UTF-8. *)
Definition latin1_gz : string :=
  String (ascii_of_nat 31) (String (ascii_of_nat 139) (String (ascii_of_nat 9) "")).
Definition latin1_txt : string :=
  "foobar" +:+ nl +:+ "caf" +:+ String (ascii_of_nat 233) nl.

Fixpoint is_ascii (s : string) : bool :=
  match s with
  | EmptyString => true
  | String c s' => (Py.ord c <? 128)%N && is_ascii s'
  end.

Definition decode (b : string) : option string :=
  if is_ascii b then Some b else None.

Definition fixture : World := {|
  file_content path :=
    if decide (path = "words.txt") then Some words_txt
    else if decide (path = "words.txt.gz") then Some words_gz
    else if decide (path = "words.txt.bz2") then Some words_bz2
    else if decide (path = "latin1.txt.gz") then Some latin1_gz
    else None;
  gunzip data :=
    if decide (data = words_gz) then Returns words_txt
    else if decide (data = latin1_gz) then Returns latin1_txt
    else Raises BadGzipFile;
  text_decode := decode;
  decode_utf8 := decode
|}.
End Fixture.

(** ** The canonical key as the specification words it *)

(** Code points ordered as numbers. *)
Definition code_point_le (a b : ascii) : Prop := (Py.ord a ≤ Py.ord b)%N.

Global Instance code_point_le_dec : RelDecision code_point_le.
Proof. intros a b. unfold code_point_le. apply _. Defined.

Definition sort_by_code_point (l : list ascii) : list ascii :=
  merge_sort code_point_le l.

(** Follows the specification: remove the space characters, lower-case what
    remains, sort by code point, concatenate. *)
Definition canonicalKey (w : string) : string :=
  string_of_list_ascii
    (sort_by_code_point
       (Py.lower_char <$> filter (λ c, c ≠ Py.SPACE) (list_ascii_of_string w))).

(** The characters of the key, before they are concatenated. *)
Definition key_chars (w : string) : list ascii :=
  sort_by_code_point
    (Py.lower_char <$> filter (λ c, c ≠ Py.SPACE) (list_ascii_of_string w)).

(** The one-character string of a character. *)
Definition single (c : ascii) : string := String c EmptyString.

(** ** Notions the statements use *)

(** [word.replace('\n', '')] in [store_anagram]. *)
Definition strip (line : string) : string := Py.replace (String Py.LF "") "" line.

(** The words of [lines] whose key is [k], in the order of [lines]. *)
Definition bucket (lines : list string) (k : string) : list string :=
  filter (λ word, anagram_hash word = k) (strip <$> lines).

(** A dictionary entry is either absent or a non-empty list. *)
Definition entry (b : list string) : option (list string) :=
  match b with [] => None | _ => Some b end.

(** Every word sits under its own key. *)
Definition keyed (d : gmap string (list string)) : Prop :=
  ∀ k b word, d !! k = Some b → word ∈ b → anagram_hash word = k.

(** No bucket is empty. *)
Definition no_empty_bucket (d : gmap string (list string)) : Prop :=
  ∀ k, d !! k ≠ Some [].

(** No key holds a line feed. *)
Definition LF_free (s : string) : Prop := Py.LF ∉ list_ascii_of_string s.
Definition keys_LF_free (d : gmap string (list string)) : Prop :=
  ∀ k, is_Some (d !! k) → LF_free k.

(** [word] is held by some bucket of [self]. *)
Definition stored (self : Anagrams) (word : string) : Prop :=
  ∃ k b, anagrams self !! k = Some b ∧ word ∈ b.

(** The text of a line, as the loop of [__post_init__] obtains it. *)
Definition text_of (w : World) (word : pyval) : option string :=
  match word with
  | PyStr s => Some s
  | PyBytes b => decode_utf8 w b
  end.

(** The lines the source at [path] yields when it can be read: the lines of
    the decompressed bytes, or after [BadGzipFile] the lines of the text. *)
Definition source_lines (w : World) (path : string) : option (list pyval) :=
  data ← file_content w path;
  match gunzip w data with
  | Returns raw => Some (PyBytes <$> Py.readlines raw)
  | Raises BadGzipFile => fmap (M := list) PyStr <$> (Py.readlines <$> text_decode w data)
  | Raises _ => None
  end.

(** The same lines as text, when each of them decodes. *)
Definition source_texts (w : World) (path : string) : option (list string) :=
  words ← source_lines w path; mapM (text_of w) words.

(** The method calls a client can make on an object, and the object each
    leaves behind: [store_anagram] stores, [anagram_hash] and [get_anagrams]
    only read. *)
Inductive call : Type :=
  | CallStore (word : string)
  | CallHash (word : string)
  | CallGet (word : string).

Definition run_call (self : Anagrams) (c : call) : Anagrams :=
  match c with
  | CallStore word => store_anagram self word
  | CallHash _ | CallGet _ => self
  end.

(** The object [Anagrams('words.txt')] of the tests. *)
Definition fixture_index : Anagrams :=
  foldl store_anagram {| words_file_path := "words.txt"; anagrams := ∅ |}
    (Py.readlines Fixture.words_txt).

(** The letters of a word: its characters other than spaces, lower-cased,
    in the order of the word. *)
Definition letters (w : string) : list ascii :=
  Py.lower_char <$> filter (λ c, c ≠ Py.SPACE) (list_ascii_of_string w).

(** The words a dictionary holds, bucket after bucket. *)
Definition all_words (d : gmap string (list string)) : list string :=
  mjoin (snd <$> map_to_list d).

(** ** The tests of the module

    A test method passes when it returns, fails when an [assertEqual] does
    not hold, and is in error when another exception leaves it. *)
Inductive verdict : Type :=
  | Passed
  | Failed
  | Errored (e : exn).

(** [self.assertEqual(first, second)] and what follows it. *)
Definition assertEqual {A : Type} `{EqDecision A} (first second : A)
    (rest : verdict) : verdict :=
  if decide (first = second) then rest else Failed.

Section Tests.
Context (w : World).

Definition test_anagrams : verdict :=
  match new w "words.txt" with
  | Raises e => Errored e
  | Returns anagrams =>
      assertEqual (get_anagrams anagrams "dictionary")
        (Some ["dictionary"; "indicatory"])
      (assertEqual (get_anagrams anagrams "tea spoon")
        (Some ["tea spoon"; "teaspoon"])
      (assertEqual (get_anagrams anagrams "foobaR")
        (Some ["FooBar"; "foobar"])
      (assertEqual (get_anagrams anagrams "randa--")
        (Some ["A-and-R"])
       Passed)))
  end.

Definition test_gzipped_file : verdict :=
  match new w "words.txt.gz" with
  | Raises e => Errored e
  | Returns anagrams =>
      assertEqual (get_anagrams anagrams "dictionary")
        (Some ["dictionary"; "indicatory"]) Passed
  end.

(** The [try] catches [RuntimeError] only and has no [else]: a construction
    that returns leaves the test without an assertion.  The exceptions
    [OtherError] stands for, those of the gzip reader, are not
    [RuntimeError]s. *)
Definition test_bad_file_format_raises_error : verdict :=
  match new w "words.txt.bz2" with
  | Returns _ => Passed
  | Raises (RuntimeError msg) =>
      assertEqual msg "Unsupported file words.txt.bz2" Passed
  | Raises e => Errored e
  end.

Definition test_no_match_returns_none : verdict :=
  match new w "words.txt" with
  | Raises e => Errored e
  | Returns anagrams =>
      assertEqual (get_anagrams anagrams "fizzbang") None Passed
  end.
End Tests.

(** ** A gzip file cut short

    [truncated.gz] holds the first four bytes of a gzip stream and nothing
    more.  The gzip reader accepts the magic number and then meets the end
    of the file: it raises [EOFError], not [BadGzipFile].  The bytes are no
    UTF-8 text either (0x8B cannot start a character). *)
Definition truncated_gz : string :=
  String (ascii_of_nat 31) (String (ascii_of_nat 139)
    (String (ascii_of_nat 8) (String (ascii_of_nat 0) ""))).

Definition truncated_world : World := {|
  file_content path :=
    if decide (path = "truncated.gz") then Some truncated_gz else None;
  gunzip data :=
    if decide (data = truncated_gz) then Raises (OtherError "EOFError")
    else Raises BadGzipFile;
  text_decode := Fixture.decode;
  decode_utf8 := Fixture.decode
|}.

(** ** Facts about the built-ins *)

Example replace_ex : Py.replace " " "" "tea  spoon " = "teaspoon".
Proof. reflexivity. Qed.
Example replace_ex2 : Py.replace "ab" "x" "aababab" = "axxx".
Proof. reflexivity. Qed.
Example lower_ex : Py.lower "A-and-R" = "a-and-r".
Proof. reflexivity. Qed.
Example sorted_ex : Py.join "" (Py.sorted (Py.list_ "dictionary")) = "acdiinorty".
Proof. vm_compute. reflexivity. Qed.
Example readlines_ex :
  Py.readlines ("a" +:+ Fixture.nl +:+ "b" +:+ Fixture.nl +:+ Fixture.nl +:+ "c")
  = ["a" +:+ Fixture.nl; "b" +:+ Fixture.nl; Fixture.nl; "c"].
Proof. reflexivity. Qed.

Section Builtins.

Global Instance code_point_le_trans : Transitive code_point_le.
Proof. intros a b c. unfold code_point_le. lia. Qed.

Global Instance code_point_le_total : Total code_point_le.
Proof. intros a b. unfold code_point_le. lia. Qed.

Lemma ord_inj a b : Py.ord a = Py.ord b → a = b.
Proof.
  unfold Py.ord. intros E.
  rewrite <- (ascii_N_embedding a), <- (ascii_N_embedding b). by rewrite E.
Qed.

Global Instance code_point_le_antisym : AntiSymm (=) code_point_le.
Proof. intros a b. unfold code_point_le. intros. apply ord_inj. lia. Qed.

Lemma list_chars s : Py.list_ s = single <$> list_ascii_of_string s.
Proof. induction s as [|c s IH]; simpl; [done | by rewrite IH]. Qed.

Lemma join_single l : Py.join "" (single <$> l) = string_of_list_ascii l.
Proof.
  induction l as [|c l IH]; [done|].
  change (single <$> c :: l) with (single c :: (single <$> l)).
  simpl. rewrite <- IH. destruct (single <$> l); done.
Qed.

Lemma lower_chars s :
  Py.lower s = string_of_list_ascii (Py.lower_char <$> list_ascii_of_string s).
Proof. induction s as [|c s IH]; simpl; [done | by rewrite IH]. Qed.

(** Replacing a one-character string by the empty string filters that
    character out. *)
Lemma replace_char a s :
  Py.replace (single a) "" s
  = string_of_list_ascii (filter (λ c, c ≠ a) (list_ascii_of_string s)).
Proof.
  unfold Py.replace, single.
  induction s as [|c s IH]; [done|].
  cbn [Py.replace_from Py.startswith String.length Nat.sub list_ascii_of_string].
  rewrite filter_cons. destruct (decide (a = c)) as [->|Hne].
  - rewrite decide_False by (intros H; exact (H eq_refl)). apply IH.
  - rewrite decide_True by congruence. simpl. by rewrite IH.
Qed.

Lemma single_le a b : String.le (single a) (single b) ↔ code_point_le a b.
Proof.
  unfold String.le, String.leb, code_point_le, single, Py.ord. simpl.
  unfold Ascii.compare. rewrite N.le_lteq, <- N.compare_lt_iff, <- N.compare_eq_iff.
  destruct (N_of_ascii a ?= N_of_ascii b)%N; simpl; intuition congruence.
Qed.

Lemma sorted_single l :
  Py.sorted (single <$> l) = single <$> sort_by_code_point l.
Proof.
  apply (Sorted_unique String.le).
  - apply (Sorted_merge_sort String.le).
  - apply Sorted_fmap with (R1 := code_point_le).
    + intros a b. apply single_le.
    + apply (Sorted_merge_sort code_point_le).
  - unfold Py.sorted, sort_by_code_point.
    by rewrite !merge_sort_Permutation.
Qed.

Lemma sort_sorted l : Sorted code_point_le l → sort_by_code_point l = l.
Proof.
  intros Hl. apply (Sorted_unique code_point_le); [|done|].
  - apply (Sorted_merge_sort code_point_le).
  - apply merge_sort_Permutation.
Qed.

(** The method computes the key of the specification. *)
Lemma anagram_hash_canonical w : anagram_hash w = canonicalKey w.
Proof.
  unfold anagram_hash, canonicalKey.
  change " " with (single Py.SPACE).
  rewrite replace_char, lower_chars, list_chars,
    !list_ascii_of_string_of_list_ascii, sorted_single.
  apply join_single.
Qed.

Lemma anagram_hash_chars w : list_ascii_of_string (anagram_hash w) = key_chars w.
Proof.
  rewrite anagram_hash_canonical. apply list_ascii_of_string_of_list_ascii.
Qed.

Lemma key_chars_perm w :
  key_chars w
  ≡ₚ Py.lower_char <$> filter (λ c, c ≠ Py.SPACE) (list_ascii_of_string w).
Proof. apply merge_sort_Permutation. Qed.

Lemma key_chars_sorted w : Sorted code_point_le (key_chars w).
Proof. apply (Sorted_merge_sort code_point_le). Qed.

(** Lower-casing, character by character. *)
Lemma lower_char_idemp c : Py.lower_char (Py.lower_char c) = Py.lower_char c.
Proof. by destruct c as [[] [] [] [] [] [] [] []]. Qed.

Lemma lower_char_space c : Py.lower_char c = Py.SPACE → c = Py.SPACE.
Proof. by destruct c as [[] [] [] [] [] [] [] []]. Qed.

Lemma lower_char_LF c : Py.lower_char c = Py.LF ↔ c = Py.LF.
Proof. by destruct c as [[] [] [] [] [] [] [] []]. Qed.

Lemma key_chars_elem w c :
  c ∈ key_chars w ↔
  ∃ c0, c = Py.lower_char c0 ∧ c0 ≠ Py.SPACE ∧ c0 ∈ list_ascii_of_string w.
Proof.
  rewrite key_chars_perm, list_elem_of_fmap.
  setoid_rewrite list_elem_of_filter. naive_solver.
Qed.

End Builtins.

(** ** Facts about the index *)

Section Index.
Implicit Types (d : gmap string (list string)) (self : Anagrams).

Lemma filter_all {A} (P : A → Prop) `{∀ x, Decision (P x)} (l : list A) :
  Forall P l → filter P l = l.
Proof.
  induction 1 as [|x l Hx _ IH]; [done|].
  by rewrite filter_cons_True, IH.
Qed.

Lemma fmap_fixed {A} (f : A → A) (l : list A) :
  Forall (λ x, f x = x) l → f <$> l = l.
Proof.
  induction 1 as [|x l Hx _ IH]; [done|].
  by rewrite fmap_cons, Hx, IH.
Qed.

Lemma strip_chars line :
  list_ascii_of_string (strip line)
  = filter (λ c, c ≠ Py.LF) (list_ascii_of_string line).
Proof.
  unfold strip. change (String Py.LF "") with (single Py.LF).
  by rewrite replace_char, list_ascii_of_string_of_list_ascii.
Qed.

Lemma strip_LF_free line : LF_free (strip line).
Proof.
  unfold LF_free. rewrite strip_chars, list_elem_of_filter.
  intros [Hne _]. exact (Hne eq_refl).
Qed.

Lemma strip_id s : LF_free s → strip s = s.
Proof.
  intros Hs. rewrite <- (string_of_list_ascii_of_string (strip s)), strip_chars.
  rewrite <- (string_of_list_ascii_of_string s) at 2. f_equal.
  apply filter_all. apply Forall_forall. intros c Hc ->. by apply Hs.
Qed.

Lemma chars_app s t :
  list_ascii_of_string (s +:+ t)
  = (list_ascii_of_string s ++ list_ascii_of_string t)%list.
Proof. induction s as [|c s IH]; simpl; [done | by rewrite IH]. Qed.

(** A line ending in its line feed is stored without it. *)
Lemma strip_line s : LF_free s → strip (s +:+ single Py.LF) = s.
Proof.
  intros Hs. unfold single. rewrite <- (string_of_list_ascii_of_string (strip _)), strip_chars.
  rewrite chars_app, filter_app, <- strip_chars, (strip_id s Hs).
  simpl. rewrite filter_cons, decide_False by (intros H; exact (H eq_refl)).
  by rewrite filter_nil, app_nil_r, string_of_list_ascii_of_string.
Qed.

Lemma chars_inj s t : list_ascii_of_string s = list_ascii_of_string t → s = t.
Proof.
  intros E. rewrite <- (string_of_list_ascii_of_string s),
    <- (string_of_list_ascii_of_string t). by rewrite E.
Qed.

Lemma chars_rev_app s : ∀ t,
  list_ascii_of_string (String.rev_app s t)
  = (reverse (list_ascii_of_string s) ++ list_ascii_of_string t)%list.
Proof.
  induction s as [|c s IH]; intros t; [done|].
  simpl. by rewrite IH, reverse_cons, <- app_assoc.
Qed.

Lemma rev_LF_free s : LF_free s → LF_free (String.rev s).
Proof.
  unfold LF_free, String.rev. rewrite chars_rev_app, app_nil_r, elem_of_reverse. done.
Qed.

Lemma rev_snoc c s : String.rev (String c s) = String.rev s +:+ single c.
Proof.
  apply chars_inj. unfold String.rev. simpl.
  by rewrite chars_app, !chars_rev_app, !app_nil_r.
Qed.

(** Every line of [readlines] is free of line feeds but for one that may end
    it. *)
Lemma readlines_from_shape s : ∀ cur l,
  LF_free cur → l ∈ Py.readlines_from cur s →
  ∃ u, LF_free u ∧ (l = u ∨ l = u +:+ single Py.LF).
Proof.
  induction s as [|c s IH]; intros cur l Hcur; simpl.
  - destruct cur as [|c cur]; [by intros ?%elem_of_nil|].
    intros ->%list_elem_of_singleton. eexists. split; [by apply rev_LF_free|by left].
  - case_decide as Hc.
    + subst c. intros [->|Hl]%elem_of_cons.
      * exists (String.rev cur). split; [by apply rev_LF_free|]. right. apply rev_snoc.
      * apply (IH "" l); [|done]. unfold LF_free. simpl. apply not_elem_of_nil.
    + apply IH. unfold LF_free in *. simpl. rewrite elem_of_cons.
      intros [E|E]; [by apply Hc | by apply Hcur].
Qed.

Lemma readlines_shape content l :
  l ∈ Py.readlines content →
  ∃ u, LF_free u ∧ (l = u ∨ l = u +:+ single Py.LF).
Proof. apply readlines_from_shape. unfold LF_free. simpl. apply not_elem_of_nil. Qed.

Lemma hash_LF word : LF_free (anagram_hash word) ↔ LF_free word.
Proof.
  unfold LF_free. rewrite anagram_hash_chars, key_chars_elem. split.
  - intros H Hin. apply H. exists Py.LF.
    split; [reflexivity | split; [discriminate | exact Hin]].
  - intros H (c & Hc & _ & Hin). symmetry in Hc.
    apply (proj1 (lower_char_LF c)) in Hc. rewrite Hc in Hin. exact (H Hin).
Qed.

Lemma lookup_setdefault_append key word d k :
  setdefault_append key word d !! k
  = if decide (key = k) then Some (default [] (d !! key) ++ [word])%list
    else d !! k.
Proof. unfold setdefault_append. by rewrite lookup_insert. Qed.

Lemma anagrams_store self line :
  anagrams (store_anagram self line)
  = setdefault_append (anagram_hash (strip line)) (strip line) (anagrams self).
Proof. done. Qed.

Lemma path_store self line :
  words_file_path (store_anagram self line) = words_file_path self.
Proof. done. Qed.

(** The buckets after a run of [store_anagram]. *)
Lemma lookup_foldl_store lines : ∀ self k,
  anagrams (foldl store_anagram self lines) !! k
  = match bucket lines k with
    | [] => anagrams self !! k
    | b => Some (default [] (anagrams self !! k) ++ b)%list
    end.
Proof.
  induction lines as [|line lines IH]; intros self k; [done|].
  cbn [foldl]. rewrite IH, anagrams_store, lookup_setdefault_append.
  unfold bucket. rewrite fmap_cons, filter_cons.
  fold (bucket lines k). case_decide as Hk; [|done].
  subst k. simpl.
  destruct (bucket lines _); simpl; [done|]. by rewrite <- app_assoc.
Qed.

Lemma keyed_store self line :
  keyed (anagrams self) → keyed (anagrams (store_anagram self line)).
Proof.
  intros Hd k b word. rewrite anagrams_store, lookup_setdefault_append.
  case_decide as Hk; [|by apply Hd].
  intros [= <-] [Hin | Hin]%elem_of_app.
  - destruct (anagrams self !! _) as [b0|] eqn:E; simpl in Hin.
    + rewrite <- Hk. by eapply Hd.
    + by apply elem_of_nil in Hin.
  - apply list_elem_of_singleton in Hin. by subst.
Qed.

Lemma no_empty_bucket_store self line :
  no_empty_bucket (anagrams self) → no_empty_bucket (anagrams (store_anagram self line)).
Proof.
  intros Hd k. rewrite anagrams_store, lookup_setdefault_append.
  case_decide as Hk; [|by apply Hd].
  intros [= Hnil]. by apply app_nil in Hnil as [_ [=]].
Qed.

Lemma keys_LF_free_store self line :
  keys_LF_free (anagrams self) → keys_LF_free (anagrams (store_anagram self line)).
Proof.
  intros Hd k. rewrite anagrams_store, lookup_setdefault_append.
  case_decide as Hk; [|by apply Hd].
  intros _. rewrite <- Hk. apply hash_LF, strip_LF_free.
Qed.

Lemma foldl_store_inv (P : gmap string (list string) → Prop) lines :
  (∀ self line, P (anagrams self) → P (anagrams (store_anagram self line))) →
  ∀ self, P (anagrams self) → P (anagrams (foldl store_anagram self lines)).
Proof.
  intros HP. induction lines as [|line lines IH]; intros self H; [done|].
  cbn [foldl]. by apply IH, HP.
Qed.

Lemma path_foldl_store lines : ∀ self,
  words_file_path (foldl store_anagram self lines) = words_file_path self.
Proof. induction lines as [|l lines IH]; intros self; [done|]. cbn [foldl]. by rewrite IH. Qed.

End Index.

(** ** Facts about construction *)

Section Construction.
Context (w : World).
Implicit Types (self : Anagrams) (words : list pyval).

(** When every line decodes, the loop stores them all. *)
Lemma store_words_texts words : ∀ texts self,
  mapM (text_of w) words = Some texts →
  store_words w words self = (foldl store_anagram self texts, Returns tt).
Proof.
  induction words as [|word words IH]; intros texts self.
  - by intros [= <-].
  - rewrite mapM_Some. intros Hall. inv Hall as [|? text ? rest Hword Hrest].
    apply mapM_Some in Hrest.
    cbn [store_words foldl]. unfold try_decode, str_utf8.
    destruct word as [b|s]; simpl in Hword.
    + rewrite Hword. by apply IH.
    + injection Hword as ->. by apply IH.
Qed.

(** When some line does not decode, the loop stops at the first such line
    with [UnicodeDecodeError], the lines before it stored. *)
Lemma store_words_undecodable words : ∀ self,
  mapM (text_of w) words = None →
  ∃ texts, store_words w words self
           = (foldl store_anagram self texts, Raises UnicodeDecodeError).
Proof.
  induction words as [|word words IH]; intros self; [done|].
  cbn [store_words]. unfold try_decode, str_utf8.
  rewrite mapM_None. intros Hex.
  destruct word as [b|s]; simpl.
  - destruct (decode_utf8 w b) as [s|] eqn:Hb.
    + apply Exists_cons in Hex as [Hw|Hrest]; [simpl in Hw; congruence|].
      apply mapM_None in Hrest.
      destruct (IH (store_anagram self s) Hrest) as [texts ->].
      by exists (s :: texts).
    + by exists [].
  - apply Exists_cons in Hex as [Hw|Hrest]; [done|].
    apply mapM_None in Hrest.
    destruct (IH (store_anagram self s) Hrest) as [texts ->].
    by exists (s :: texts).
Qed.

(** The loop raises nothing but [UnicodeDecodeError]. *)
Lemma store_words_raises words self self' e :
  store_words w words self = (self', Raises e) → e = UnicodeDecodeError.
Proof.
  destruct (mapM (text_of w) words) as [texts|] eqn:E.
  - rewrite (store_words_texts _ _ _ E). by intros [= _].
  - destruct (store_words_undecodable _ self E) as [texts ->]. by intros [= _ <-].
Qed.

(** A source that reads and decodes gives an object: the lines stored in
    order into the initial dictionary. *)
Lemma init_source path d texts :
  source_texts w path = Some texts →
  init w path d
  = Returns (foldl store_anagram {| words_file_path := path; anagrams := d |} texts).
Proof.
  unfold source_texts, source_lines, init, post_init, read_file, read_plain.
  cbn [words_file_path].
  destruct (file_content w path) as [data|]; [simpl|done].
  destruct (gunzip w data) as [raw|[]]; try done; simpl.
  - intros E. by rewrite (store_words_texts _ _ _ E).
  - destruct (text_decode w data) as [text|]; [simpl|done].
    intros E. by rewrite (store_words_texts _ _ _ E).
Qed.

(** Conversely an object comes from such a source only. *)
Lemma init_returns path d self :
  init w path d = Returns self →
  ∃ texts, source_texts w path = Some texts ∧
    self = foldl store_anagram {| words_file_path := path; anagrams := d |} texts.
Proof.
  destruct (source_texts w path) as [texts|] eqn:E.
  { rewrite (init_source _ d _ E). intros [= <-]. by exists texts. }
  revert E.
  unfold source_texts, source_lines, init, post_init, read_file, read_plain.
  cbn [words_file_path].
  destruct (file_content w path) as [data|]; [simpl|done].
  destruct (gunzip w data) as [raw|[]]; try done; simpl.
  - intros E.
    destruct (store_words_undecodable _
      {| words_file_path := path; anagrams := d |} E) as [texts ->]. done.
  - destruct (text_decode w data) as [text|]; [simpl|done].
    intros E.
    destruct (store_words_undecodable _
      {| words_file_path := path; anagrams := d |} E) as [texts ->]. done.
Qed.

Lemma new_returns path self :
  new w path = Returns self →
  ∃ texts, source_texts w path = Some texts ∧
    self = foldl store_anagram {| words_file_path := path; anagrams := ∅ |} texts.
Proof. apply init_returns. Qed.

(** The buckets of a new object. *)
Lemma new_lookup path self :
  new w path = Returns self →
  ∃ texts, source_texts w path = Some texts ∧
    ∀ k, anagrams self !! k = entry (bucket texts k).
Proof.
  intros (texts & E & ->)%new_returns. exists texts. split; [done|].
  intros k. rewrite lookup_foldl_store. cbn [anagrams].
  rewrite lookup_empty. by destruct (bucket texts k).
Qed.

Lemma new_inv (P : gmap string (list string) → Prop) path self :
  (∀ self line, P (anagrams self) → P (anagrams (store_anagram self line))) →
  P ∅ → new w path = Returns self → P (anagrams self).
Proof.
  intros HP H0 (texts & _ & ->)%new_returns. by apply foldl_store_inv.
Qed.

End Construction.


(** ** The canonical key *)

(** C1. For every word, [anagram_hash] is the key the specification
    describes: the space characters removed (and nothing else: every other
    character is kept, lower-cased), the rest lower-cased, sorted by code
    point and concatenated; the key is a function of the word alone. *)
Theorem anagram_hash_spec (w : string) :
  anagram_hash w = canonicalKey w ∧
  Sorted code_point_le (list_ascii_of_string (anagram_hash w)) ∧
  list_ascii_of_string (anagram_hash w)
    ≡ₚ Py.lower_char <$> filter (λ c, c ≠ Py.SPACE) (list_ascii_of_string w) ∧
  (∀ w', w' = w → anagram_hash w' = anagram_hash w).
Proof.
  split; [apply anagram_hash_canonical|].
  rewrite anagram_hash_chars. split; [apply key_chars_sorted|].
  split; [apply key_chars_perm|]. by intros w' ->.
Qed.

Lemma anagram_hash_spec_witness :
  anagram_hash "A-and-R" = canonicalKey "A-and-R" ∧
  anagram_hash "A-and-R" = "--aadnr".
Proof.
  split; [|vm_compute; reflexivity].
  exact (proj1 (anagram_hash_spec "A-and-R")).
Defined.

(** C10. The key of a key is that key. *)
Theorem anagram_hash_idempotent (w : string) :
  anagram_hash (anagram_hash w) = anagram_hash w.
Proof.
  rewrite (anagram_hash_canonical (anagram_hash w)). unfold canonicalKey.
  rewrite anagram_hash_chars.
  assert (filter (λ c, c ≠ Py.SPACE) (key_chars w) = key_chars w) as ->.
  { apply filter_all, Forall_forall. intros c (c0 & -> & Hc0 & _)%key_chars_elem.
    intros Hsp. by apply lower_char_space in Hsp. }
  assert (Py.lower_char <$> key_chars w = key_chars w) as ->.
  { apply fmap_fixed, Forall_forall.
    intros c (c0 & -> & _)%key_chars_elem. apply lower_char_idemp. }
  rewrite (sort_sorted _ (key_chars_sorted w)), <- anagram_hash_chars.
  apply string_of_list_ascii_of_string.
Qed.

(** ** The index *)

(** C2, as the code has it.  After a construction that succeeds, every word
    of every bucket has the bucket's key as its own key, so that looking the
    word up returns the bucket that holds it; this stays so after any
    further method calls.  Of these [store_anagram] does change the
    dictionary and keeps the property; [anagram_hash] and [get_anagrams]
    leave the object as it is. *)
Theorem index_keyed (w : World) (path : string) (self : Anagrams)
    (calls : list call) :
  new w path = Returns self →
  (∀ k b word, anagrams self !! k = Some b → word ∈ b → anagram_hash word = k) ∧
  (∀ word, stored self word →
     ∃ b, get_anagrams self word = Some b ∧ word ∈ b) ∧
  keyed (anagrams (foldl run_call self calls)) ∧
  (Forall (λ c, ∀ word, c ≠ CallStore word) calls →
     foldl run_call self calls = self).
Proof.
  intros Hnew.
  assert (keyed (anagrams self)) as Hkeyed.
  { apply (new_inv w keyed path self); [apply keyed_store | | done].
    intros k b word. by rewrite lookup_empty. }
  split; [exact Hkeyed|]. split; [|split].
  - intros word (k & b & Hk & Hin). exists b. split; [|done].
    unfold get_anagrams. by rewrite (Hkeyed _ _ _ Hk Hin).
  - clear Hnew. revert self Hkeyed.
    induction calls as [|c calls IH]; intros self Hkeyed; [done|].
    cbn [foldl]. apply IH. destruct c; [by apply keyed_store | done..].
  - clear. revert self. induction calls as [|c calls IH]; intros self; [done|].
    intros [Hc Hcalls]%Forall_cons. cbn [foldl].
    destruct c as [word| |]; [by destruct (Hc word) | by apply IH..].
Qed.

Lemma fixture_new : new Fixture.fixture "words.txt" = Returns fixture_index.
Proof. vm_compute. reflexivity. Defined.

Lemma index_keyed_witness :
  new Fixture.fixture "words.txt" = Returns fixture_index ∧
  keyed (anagrams (foldl run_call fixture_index [CallGet "foobaR"; CallStore "Boofar"])).
Proof.
  split; [exact fixture_new|].
  apply (index_keyed Fixture.fixture "words.txt" fixture_index
           [CallGet "foobaR"; CallStore "Boofar"]).
  vm_compute. reflexivity.
Defined.

(** C2, as the claim has it, fails: the dictionary does change after the
    construction.  [store_anagram] is a method of the object like the
    others, and a call of it on the object of the tests adds a word to the
    bucket of ["foobar"]. *)
Lemma store_after_build_mutates :
  new Fixture.fixture "words.txt" = Returns fixture_index ∧
  get_anagrams fixture_index "foobar" = Some ["FooBar"; "foobar"] ∧
  get_anagrams (store_anagram fixture_index "Boofar") "foobar"
  = Some ["FooBar"; "foobar"; "Boofar"] ∧
  anagrams (store_anagram fixture_index "Boofar") ≠ anagrams fixture_index.
Proof.
  split; [exact fixture_new|]. split; [vm_compute; reflexivity|].
  split; [vm_compute; reflexivity|].
  intros E. apply (f_equal (λ d, d !! "abfoor")) in E.
  vm_compute in E. discriminate.
Qed.

(** ** Look-ups *)

(** C3. Two words with the same key get the same answer from any object,
    and on a constructed object the answer holds every stored word with that
    key; in particular ["foobaR"] and ["FOOBAR"] get the same answer, and
    ["tea spoon"] gets the bucket that holds ["teaspoon"]. *)
Theorem same_key_same_answer (w : World) (path : string) (self : Anagrams)
    (A B : string) :
  new w path = Returns self →
  anagram_hash A = anagram_hash B →
  get_anagrams self A = get_anagrams self B ∧
  (stored self A → ∃ b, get_anagrams self B = Some b ∧ A ∈ b) ∧
  (stored self B → ∃ b, get_anagrams self A = Some b ∧ B ∈ b) ∧
  get_anagrams self "foobaR" = get_anagrams self "FOOBAR" ∧
  (stored self "teaspoon" →
     ∃ b, get_anagrams self "tea spoon" = Some b ∧ "teaspoon" ∈ b).
Proof.
  intros Hnew HAB.
  assert (keyed (anagrams self)) as Hkeyed.
  { apply (new_inv w keyed path self); [apply keyed_store | | done].
    intros k b word. by rewrite lookup_empty. }
  assert (∀ X Y, anagram_hash X = anagram_hash Y → stored self X →
            ∃ b, get_anagrams self Y = Some b ∧ X ∈ b) as Hclass.
  { intros X Y HXY (k & b & Hk & Hin). exists b. split; [|done].
    unfold get_anagrams. by rewrite <- HXY, (Hkeyed _ _ _ Hk Hin). }
  unfold get_anagrams at 1 2. rewrite HAB. split; [done|].
  split; [by apply Hclass|]. split; [by apply Hclass|].
  split; [done|]. by apply Hclass.
Qed.

Lemma same_key_same_answer_witness :
  new Fixture.fixture "words.txt" = Returns fixture_index ∧
  anagram_hash "FooBar" = anagram_hash "foobaR" ∧
  get_anagrams fixture_index "FooBar" = get_anagrams fixture_index "foobaR".
Proof.
  split; [exact fixture_new|]. split; [vm_compute; reflexivity|].
  apply (same_key_same_answer Fixture.fixture "words.txt" fixture_index
           "FooBar" "foobaR"); vm_compute; reflexivity.
Defined.

(** C4. On a constructed object a look-up returns the bucket stored under
    the key of the word when there is one and [None] otherwise; it never
    returns an empty list, no bucket being empty. *)
Theorem lookup_bucket_or_none (w : World) (path : string) (self : Anagrams)
    (word : string) :
  new w path = Returns self →
  (∀ b, anagrams self !! anagram_hash word = Some b →
     get_anagrams self word = Some b) ∧
  (anagrams self !! anagram_hash word = None → get_anagrams self word = None) ∧
  get_anagrams self word ≠ Some [] ∧
  (∀ k, anagrams self !! k ≠ Some []).
Proof.
  intros Hnew.
  assert (no_empty_bucket (anagrams self)) as Hne.
  { apply (new_inv w no_empty_bucket path self); [apply no_empty_bucket_store | | done].
    intros k. by rewrite lookup_empty. }
  unfold get_anagrams. split; [done|]. split; [done|]. split; [apply Hne|exact Hne].
Qed.

Lemma lookup_bucket_or_none_witness :
  new Fixture.fixture "words.txt" = Returns fixture_index ∧
  get_anagrams fixture_index "fizzbang" ≠ Some [].
Proof.
  split; [exact fixture_new|].
  apply (lookup_bucket_or_none Fixture.fixture "words.txt" fixture_index "fizzbang").
  vm_compute. reflexivity.
Defined.

(** C5. An object constructed from the seven lines [dictionary],
    [indicatory], [tea spoon], [teaspoon], [FooBar], [foobar], [A-and-R]
    answers as the tests expect. *)
Theorem scenario (w : World) (path : string) (texts : list string) :
  source_texts w path = Some texts →
  strip <$> texts = Fixture.lines →
  ∃ self, new w path = Returns self ∧
    get_anagrams self "dictionary" = Some ["dictionary"; "indicatory"] ∧
    get_anagrams self "tea spoon" = Some ["tea spoon"; "teaspoon"] ∧
    get_anagrams self "foobaR" = Some ["FooBar"; "foobar"] ∧
    get_anagrams self "randa--" = Some ["A-and-R"] ∧
    get_anagrams self "fizzbang" = None.
Proof.
  intros Hsrc Hlines. eexists. split; [by apply init_source|].
  unfold get_anagrams. rewrite !lookup_foldl_store. cbn [anagrams].
  unfold bucket. rewrite Hlines, lookup_empty.
  repeat split; vm_compute; reflexivity.
Qed.

Lemma scenario_witness :
  source_texts Fixture.fixture "words.txt" = Some (Py.readlines Fixture.words_txt) ∧
  ∃ self, new Fixture.fixture "words.txt" = Returns self ∧
    get_anagrams self "dictionary" = Some ["dictionary"; "indicatory"] ∧
    get_anagrams self "tea spoon" = Some ["tea spoon"; "teaspoon"] ∧
    get_anagrams self "foobaR" = Some ["FooBar"; "foobar"] ∧
    get_anagrams self "randa--" = Some ["A-and-R"] ∧
    get_anagrams self "fizzbang" = None.
Proof.
  split; [vm_compute; reflexivity|].
  apply (scenario Fixture.fixture "words.txt" (Py.readlines Fixture.words_txt));
    vm_compute; reflexivity.
Defined.

(** ** Failures of construction *)




(** A gzip source with a line that is not UTF-8: [str(word, 'utf-8')] raises
    [UnicodeDecodeError], which the handler of line 43 does not catch and
    which [read_file] converts on the text path only. *)
Lemma new_gzip_undecodable (w : World) (path data raw : string) :
  file_content w path = Some data →
  gunzip w data = Returns raw →
  mapM (decode_utf8 w) (Py.readlines raw) = None →
  new w path = Raises UnicodeDecodeError.
Proof.
  intros Hfile Hgz Hdec.
  unfold new, init, post_init, read_file. cbn [words_file_path].
  rewrite Hfile, Hgz.
  assert (mapM (text_of w) (PyBytes <$> Py.readlines raw) = None) as Hnone.
  { apply mapM_None, Exists_fmap. by apply mapM_None in Hdec. }
  by destruct (store_words_undecodable w _
       {| words_file_path := path; anagrams := ∅ |} Hnone) as [texts ->].
Qed.

(** C7. The gzip file of the fixtures whose second line is the Latin-1
    bytes of "caf\xe9" makes the construction raise [UnicodeDecodeError],
    not the [RuntimeError] of an unsupported file. *)
Theorem gzip_line_not_utf8 :
  gunzip Fixture.fixture Fixture.latin1_gz = Returns Fixture.latin1_txt ∧
  new Fixture.fixture "latin1.txt.gz" = Raises UnicodeDecodeError ∧
  new Fixture.fixture "latin1.txt.gz" ≠ Raises (unsupported "latin1.txt.gz").
Proof. repeat split; vm_compute; [reflexivity..|discriminate]. Qed.

(** ** Lines and queries *)

Lemma entry_elem b x : x ∈ b → entry b = Some b.
Proof. destruct b; [by intros ?%elem_of_nil | done]. Qed.

Lemma bucket_elem texts line :
  line ∈ texts → strip line ∈ bucket texts (anagram_hash (strip line)).
Proof.
  intros Hin. unfold bucket. apply list_elem_of_filter. split; [done|].
  by apply list_elem_of_fmap_2.
Qed.

(** C8, as the code has it.  A look-up hashes the query and does nothing
    else: it does not strip line feeds.  Construction strips them before it
    hashes, so a line [s] followed by its line feed is found by the query
    [s]; a query that holds a line feed finds nothing on a constructed
    object. *)
Theorem lookup_hashes_only (w : World) (path : string) (self : Anagrams)
    (texts : list string) :
  new w path = Returns self →
  source_texts w path = Some texts →
  (∀ word, get_anagrams self word = anagrams self !! anagram_hash word) ∧
  (∀ line, line ∈ texts →
     ∃ b, anagrams self !! anagram_hash (strip line) = Some b ∧ strip line ∈ b) ∧
  (∀ s, LF_free s → s +:+ single Py.LF ∈ texts →
     ∃ b, get_anagrams self s = Some b ∧ s ∈ b) ∧
  (∀ word, ¬ LF_free word → get_anagrams self word = None).
Proof.
  intros Hnew Hsrc.
  destruct (new_lookup w path self Hnew) as (texts' & Hsrc' & Hlook).
  assert (texts' = texts) as -> by congruence.
  assert (∀ line, line ∈ texts →
    ∃ b, anagrams self !! anagram_hash (strip line) = Some b ∧ strip line ∈ b)
    as Hline.
  { intros line Hin. exists (bucket texts (anagram_hash (strip line))).
    pose proof (bucket_elem texts line Hin) as Hb.
    split; [|done]. rewrite Hlook. by eapply entry_elem. }
  split; [done|]. split; [exact Hline|]. split.
  - intros s Hs Hin. destruct (Hline _ Hin) as (b & Hb & Hsb).
    rewrite (strip_line s Hs) in Hb, Hsb. by exists b.
  - intros word Hword. unfold get_anagrams.
    destruct (anagrams self !! anagram_hash word) as [b|] eqn:E; [|done].
    destruct Hword. apply hash_LF.
    apply (new_inv w keys_LF_free path self); [apply keys_LF_free_store | | done | by eexists].
    intros k. rewrite lookup_empty. by intros [? ?].
Qed.

Lemma lookup_hashes_only_witness :
  new Fixture.fixture "words.txt" = Returns fixture_index ∧
  source_texts Fixture.fixture "words.txt" = Some (Py.readlines Fixture.words_txt) ∧
  ∀ word, get_anagrams fixture_index word
          = anagrams fixture_index !! anagram_hash word.
Proof.
  split; [exact fixture_new|]. split; [vm_compute; reflexivity|].
  apply (lookup_hashes_only Fixture.fixture "words.txt" fixture_index
           (Py.readlines Fixture.words_txt)); vm_compute; reflexivity.
Defined.

(** C8, as the claim has it, fails: on the object of the tests the query
    ["foobar"] finds its bucket and the same query with a line feed attached
    finds nothing. *)
Lemma newline_query_differs :
  new Fixture.fixture "words.txt" = Returns fixture_index ∧
  get_anagrams fixture_index "foobar" = Some ["FooBar"; "foobar"] ∧
  get_anagrams fixture_index ("foobar" +:+ single Py.LF) = None ∧
  get_anagrams fixture_index ("foobar" +:+ single Py.LF)
  ≠ get_anagrams fixture_index "foobar".
Proof. repeat split; vm_compute; [reflexivity..|discriminate]. Qed.

(** C9. When the source reads and decodes, the construction succeeds and
    the entry of every key is the list of the words with that key, in the
    order of the lines and with their repetitions (no entry when there is no
    such word); a word is its line without line feeds, every other character
    as it was, which for a line of [readlines] means without the line feed
    that ends it. *)
Theorem buckets_in_source_order (w : World) (path : string)
    (texts : list string) :
  source_texts w path = Some texts →
  ∃ self, new w path = Returns self ∧
    (∀ k, anagrams self !! k
          = entry (filter (λ word, anagram_hash word = k) (strip <$> texts))) ∧
    (∀ line, list_ascii_of_string (strip line)
             = filter (λ c, c ≠ Py.LF) (list_ascii_of_string line)) ∧
    (∀ content line, line ∈ Py.readlines content →
       ∃ u, LF_free u ∧ (line = u ∨ line = u +:+ single Py.LF) ∧ strip line = u).
Proof.
  intros Hsrc. eexists. split; [by apply init_source|].
  split; [|split].
  - intros k. rewrite lookup_foldl_store. cbn [anagrams].
    rewrite lookup_empty. fold (bucket texts k). by destruct (bucket texts k).
  - apply strip_chars.
  - intros content line (u & Hu & Hline)%readlines_shape. exists u.
    split; [done|]. split; [done|].
    destruct Hline as [-> | ->]; [by apply strip_id | by apply strip_line].
Qed.

Lemma buckets_in_source_order_witness :
  source_texts Fixture.fixture "words.txt" = Some (Py.readlines Fixture.words_txt) ∧
  ∃ self, new Fixture.fixture "words.txt" = Returns self ∧
    ∀ k, anagrams self !! k
         = entry (filter (λ word, anagram_hash word = k)
                    (strip <$> Py.readlines Fixture.words_txt)).
Proof.
  split; [vm_compute; reflexivity|].
  destruct (buckets_in_source_order Fixture.fixture "words.txt"
              (Py.readlines Fixture.words_txt)) as (self & Hnew & Hk & _).
  - vm_compute. reflexivity.
  - exists self. split; [exact Hnew | exact Hk].
Defined.


(** ** More about the key *)

Section Letters.
Implicit Types (w a b : string).

Lemma key_chars_letters w : key_chars w ≡ₚ letters w.
Proof. apply key_chars_perm. Qed.

Lemma letters_app a b : letters (a +:+ b) = (letters a ++ letters b)%list.
Proof. unfold letters. by rewrite chars_app, filter_app, fmap_app. Qed.

Lemma letters_lower w : letters (Py.lower w) = letters w.
Proof.
  unfold letters. rewrite lower_chars, list_ascii_of_string_of_list_ascii.
  induction (list_ascii_of_string w) as [|c l IH]; [done|].
  rewrite fmap_cons, !filter_cons.
  destruct (decide (c ≠ Py.SPACE)) as [Hc|Hc].
  - rewrite decide_True by (intros E; by apply lower_char_space in E).
    by rewrite !fmap_cons, lower_char_idemp, IH.
  - assert (c = Py.SPACE) as -> by (by destruct (decide (c = Py.SPACE))).
    rewrite decide_False by (intros E; exact (E eq_refl)). apply IH.
Qed.

Lemma letters_no_space w : letters (Py.replace " " "" w) = letters w.
Proof.
  unfold letters. change " " with (single Py.SPACE).
  rewrite replace_char, list_ascii_of_string_of_list_ascii. f_equal.
  apply filter_all, Forall_forall. by intros c [Hc _]%list_elem_of_filter.
Qed.

(** Two words have the same key exactly when they have the same letters,
    each as often. *)
Lemma hash_eq_letters a b :
  anagram_hash a = anagram_hash b ↔ letters a ≡ₚ letters b.
Proof.
  split.
  - intros E. rewrite <- !key_chars_letters, <- !anagram_hash_chars. by rewrite E.
  - intros E. apply chars_inj. rewrite !anagram_hash_chars.
    apply (Sorted_unique code_point_le); [apply key_chars_sorted..|].
    by rewrite !key_chars_letters.
Qed.

Lemma length_chars w : String.length w = List.length (list_ascii_of_string w).
Proof. induction w as [|c w IH]; simpl; [done | by rewrite IH]. Qed.

Lemma filter_nil_all {A} (P : A → Prop) `{∀ x, Decision (P x)} (l : list A) :
  filter P l = [] ↔ Forall (λ x, ¬ P x) l.
Proof.
  induction l as [|x l IH]; [by split; [constructor|]|].
  rewrite filter_cons, Forall_cons. destruct (decide (P x)) as [Hx|Hx].
  - split; [done | by intros [? _]].
  - rewrite IH. split; [by split | by intros [_ ?]].
Qed.

Lemma hash_empty w :
  anagram_hash w = "" ↔ Forall (λ c, c = Py.SPACE) (list_ascii_of_string w).
Proof.
  change "" with (anagram_hash ""). rewrite hash_eq_letters.
  change (letters "") with (@nil ascii). unfold letters. split.
  - intros E%Permutation_nil_r%fmap_nil_inv%filter_nil_all.
    eapply Forall_impl; [exact E|]. intros c Hc. simpl in Hc.
    by destruct (decide (c = Py.SPACE)).
  - intros E. replace (filter _ _) with (@nil ascii); [done|].
    symmetry. apply filter_nil_all. eapply Forall_impl; [exact E|].
    intros c -> Hc. exact (Hc eq_refl).
Qed.

(** A list of lower-case characters other than the space is its own list of
    letters. *)
Lemma hash_fixed w : anagram_hash (anagram_hash w) = anagram_hash w.
Proof.
  apply hash_eq_letters. unfold letters at 1.
  rewrite anagram_hash_chars.
  assert (Forall (λ c, c ≠ Py.SPACE ∧ Py.lower_char c = c) (key_chars w)) as Hk.
  { apply Forall_forall. intros c (c0 & -> & Hc0 & _)%key_chars_elem.
    split; [intros E; by apply lower_char_space in E | apply lower_char_idemp]. }
  rewrite filter_all by (eapply Forall_impl; [exact Hk | by intros c [? _]]).
  rewrite fmap_fixed by (eapply Forall_impl; [exact Hk | by intros c [_ ?]]).
  apply key_chars_letters.
Qed.

End Letters.

(** X1. For words over U+0000..U+00FF, the strings of this model: two words
    have the same key exactly when one is an anagram of the other, the
    letters of the one (spaces dropped, lower-cased) being a rearrangement
    of the letters of the other.  (Beyond U+00FF [str.lower] looks at the
    neighbours of a capital sigma, and two rearrangements can get different
    keys.) *)
Theorem same_key_iff_anagram (a b : string) :
  anagram_hash a = anagram_hash b ↔ letters a ≡ₚ letters b.
Proof. apply hash_eq_letters. Qed.

(** X2. For words over U+0000..U+00FF, the strings of this model: the key
    does not change when the word is lower-cased, when its spaces are
    removed, or when two parts of it are swapped. *)
Theorem anagram_hash_invariant (a b : string) :
  anagram_hash (Py.lower a) = anagram_hash a ∧
  anagram_hash (Py.replace " " "" a) = anagram_hash a ∧
  anagram_hash (a +:+ b) = anagram_hash (b +:+ a).
Proof.
  rewrite !hash_eq_letters, letters_lower, letters_no_space, !letters_app.
  split; [done|]. split; [done|]. apply Permutation_app_comm.
Qed.

(** X3. For words over U+0000..U+00FF, the strings of this model (where
    lower-casing keeps the number of characters): the key has one character
    for every character of the word that is not a space, so it is never
    longer than the word, and it is empty exactly for the words made of
    spaces only (the empty word among them). *)
Theorem anagram_hash_length (w : string) :
  String.length (anagram_hash w)
  = List.length (filter (λ c, c ≠ Py.SPACE) (list_ascii_of_string w)) ∧
  (String.length (anagram_hash w) ≤ String.length w)%nat ∧
  (anagram_hash w = "" ↔ Forall (λ c, c = Py.SPACE) (list_ascii_of_string w)).
Proof.
  assert (String.length (anagram_hash w)
    = List.length (filter (λ c, c ≠ Py.SPACE) (list_ascii_of_string w))) as E.
  { rewrite length_chars, anagram_hash_chars, key_chars_letters.
    unfold letters. by rewrite length_fmap. }
  split; [exact E|]. split; [|apply hash_empty].
  rewrite E, (length_chars w). apply length_filter.
Qed.

(** ** More about the index *)

Section MoreIndex.
Implicit Types (d : gmap string (list string)) (self : Anagrams).

Lemma entry_Some b b' : entry b = Some b' → b' = b ∧ b ≠ [].
Proof. destruct b; [done|]. by intros [= <-]. Qed.

(** What a look-up on a new object returns, word by word. *)
Lemma new_get_elem (w : World) path self texts q word :
  new w path = Returns self →
  source_texts w path = Some texts →
  (∃ b, get_anagrams self q = Some b ∧ word ∈ b) ↔
  anagram_hash word = anagram_hash q ∧ word ∈ strip <$> texts.
Proof.
  intros Hnew Hsrc.
  destruct (new_lookup w path self Hnew) as (texts' & Hsrc' & Hlook).
  assert (texts' = texts) as -> by congruence.
  unfold get_anagrams. rewrite Hlook. split.
  - intros (b & [-> _]%entry_Some & Hin). by apply list_elem_of_filter in Hin.
  - intros [Hk Hin]. exists (bucket texts (anagram_hash q)).
    assert (word ∈ bucket texts (anagram_hash q)) as Hb
      by (by apply list_elem_of_filter).
    split; [by eapply entry_elem | done].
Qed.

Lemma get_store self line q :
  get_anagrams (store_anagram self line) q
  = if decide (anagram_hash (strip line) = anagram_hash q)
    then Some (default [] (get_anagrams self q) ++ [strip line])%list
    else get_anagrams self q.
Proof.
  unfold get_anagrams. rewrite anagrams_store, lookup_setdefault_append.
  case_decide as Hk; [by rewrite Hk | done].
Qed.

Lemma store_prefix self line k b :
  anagrams self !! k = Some b →
  ∃ b', anagrams (store_anagram self line) !! k = Some (b ++ b')%list.
Proof.
  intros Hk. rewrite anagrams_store, lookup_setdefault_append.
  case_decide as E.
  - subst k. rewrite Hk. by exists [strip line].
  - exists []. by rewrite app_nil_r.
Qed.

Lemma all_words_setdefault_append key word d :
  all_words (setdefault_append key word d) ≡ₚ (all_words d ++ [word])%list.
Proof.
  unfold all_words, setdefault_append.
  destruct (d !! key) as [b|] eqn:E; simpl.
  - rewrite <- (insert_delete_eq d).
    rewrite map_to_list_insert by apply lookup_delete_eq.
    rewrite <- (insert_delete_id d key b E) at 2.
    rewrite map_to_list_insert by apply lookup_delete_eq.
    rewrite !fmap_cons. simpl.
    rewrite <- !app_assoc. apply Permutation_app_head, Permutation_app_comm.
  - rewrite map_to_list_insert by done.
    rewrite fmap_cons. simpl. apply Permutation_cons_append.
Qed.

Lemma all_words_foldl_store texts : ∀ self,
  all_words (anagrams (foldl store_anagram self texts))
  ≡ₚ (all_words (anagrams self) ++ (strip <$> texts))%list.
Proof.
  induction texts as [|line texts IH]; intros self.
  - by rewrite app_nil_r.
  - cbn [foldl]. rewrite IH, anagrams_store, all_words_setdefault_append.
    by rewrite fmap_cons, <- app_assoc.
Qed.

Lemma anagrams_foldl_store_ext texts : ∀ self self',
  anagrams self = anagrams self' →
  anagrams (foldl store_anagram self texts)
  = anagrams (foldl store_anagram self' texts).
Proof.
  induction texts as [|line texts IH]; intros self self' E; [done|].
  cbn [foldl]. apply IH. by rewrite !anagrams_store, E.
Qed.

End MoreIndex.

(** X4. For a source and a query over U+0000..U+00FF, the strings of this
    model: on a constructed object the words a look-up returns are exactly
    the words of the source (its lines without their line feeds) that are
    anagrams of the query: none is missing and none is foreign. *)
Theorem lookup_returns_the_anagrams (w : World) (path : string)
    (self : Anagrams) (texts : list string) (q word : string) :
  new w path = Returns self →
  source_texts w path = Some texts →
  (∃ b, get_anagrams self q = Some b ∧ word ∈ b) ↔
  word ∈ strip <$> texts ∧ letters word ≡ₚ letters q.
Proof.
  intros Hnew Hsrc.
  rewrite (new_get_elem w path self texts q word Hnew Hsrc), hash_eq_letters.
  by split; intros [? ?].
Qed.

Lemma lookup_returns_the_anagrams_witness :
  new Fixture.fixture "words.txt" = Returns fixture_index ∧
  source_texts Fixture.fixture "words.txt" = Some (Py.readlines Fixture.words_txt) ∧
  ((∃ b, get_anagrams fixture_index "randa--" = Some b ∧ "A-and-R" ∈ b) ↔
   "A-and-R" ∈ strip <$> Py.readlines Fixture.words_txt ∧
   letters "A-and-R" ≡ₚ letters "randa--").
Proof.
  split; [exact fixture_new|]. split; [vm_compute; reflexivity|].
  apply (lookup_returns_the_anagrams Fixture.fixture "words.txt" fixture_index
           (Py.readlines Fixture.words_txt) "randa--" "A-and-R");
    vm_compute; reflexivity.
Defined.




(** X7. Method calls only ever append: whatever calls are made on an object,
    a bucket it holds is still there afterwards, with the same words in the
    same places at its front. *)
Theorem calls_only_append (self : Anagrams) (calls : list call)
    (k : string) (b : list string) :
  anagrams self !! k = Some b →
  ∃ b', anagrams (foldl run_call self calls) !! k = Some (b ++ b')%list.
Proof.
  revert self b. induction calls as [|c calls IH]; intros self b Hk.
  - exists []. by rewrite app_nil_r.
  - cbn [foldl]. destruct c as [word| |]; [|by apply IH..].
    destruct (store_prefix self word k b Hk) as [b1 Hb1].
    destruct (IH _ _ Hb1) as [b2 Hb2]. exists (b1 ++ b2)%list.
    by rewrite app_assoc.
Qed.

Lemma calls_only_append_witness :
  anagrams fixture_index !! "abfoor" = Some ["FooBar"; "foobar"] ∧
  ∃ b', anagrams (foldl run_call fixture_index
                    [CallStore "Boo far"; CallGet "x"; CallStore "tea"])
          !! "abfoor"
        = Some (["FooBar"; "foobar"] ++ b')%list.
Proof.
  split; [vm_compute; reflexivity|].
  apply (calls_only_append fixture_index
           [CallStore "Boo far"; CallGet "x"; CallStore "tea"]
           "abfoor" ["FooBar"; "foobar"]).
  vm_compute. reflexivity.
Defined.

(** ** More about construction *)

Section MoreConstruction.
Context (w : World).

Lemma mapM_text_of_bytes (ls : list string) :
  mapM (text_of w) (PyBytes <$> ls) = mapM (decode_utf8 w) ls.
Proof.
  induction ls as [|l ls IH]; [done|].
  rewrite fmap_cons. cbn [mapM text_of]. by rewrite IH.
Qed.

Lemma mapM_text_of_str (ls : list string) :
  mapM (text_of w) (PyStr <$> ls) = Some ls.
Proof.
  induction ls as [|l ls IH]; [done|].
  rewrite fmap_cons. cbn [mapM text_of]. by rewrite IH.
Qed.

(** The loop stops at the first line that does not decode; the lines before
    it are stored. *)
Lemma store_words_stops pre : ∀ bad post texts self,
  mapM (decode_utf8 w) pre = Some texts →
  decode_utf8 w bad = None →
  store_words w (PyBytes <$> (pre ++ bad :: post)%list) self
  = (foldl store_anagram self texts, Raises UnicodeDecodeError).
Proof.
  induction pre as [|l pre IH]; intros bad post texts self Hpre Hbad.
  - injection Hpre as <-. simpl. unfold try_decode, str_utf8. by rewrite Hbad.
  - apply mapM_Some in Hpre. inv Hpre as [|? s ? rest Hl Hrest].
    apply mapM_Some in Hrest.
    cbn [app fmap list_fmap store_words]. unfold try_decode, str_utf8.
    rewrite Hl. cbn [foldl]. by apply IH.
Qed.

(** Every outcome of the constructor. *)
Lemma init_cases path d :
  init w path d
  = let self := {| words_file_path := path; anagrams := d |} in
    match file_content w path with
    | None => Raises UnboundLocalError
    | Some data =>
        match gunzip w data with
        | Returns raw =>
            match mapM (decode_utf8 w) (Py.readlines raw) with
            | Some texts => Returns (foldl store_anagram self texts)
            | None => Raises UnicodeDecodeError
            end
        | Raises BadGzipFile =>
            match text_decode w data with
            | Some text => Returns (foldl store_anagram self (Py.readlines text))
            | None => Raises (unsupported path)
            end
        | Raises e => Raises e
        end
    end.
Proof.
  unfold init, post_init, read_file, read_plain. cbn [words_file_path].
  destruct (file_content w path) as [data|]; [|done].
  destruct (gunzip w data) as [raw|e].
  - rewrite <- mapM_text_of_bytes.
    destruct (mapM (text_of w) (PyBytes <$> Py.readlines raw)) as [texts|] eqn:E.
    + by rewrite (store_words_texts w _ _ _ E).
    + by destruct (store_words_undecodable w _
        {| words_file_path := path; anagrams := d |} E) as [texts ->].
  - destruct e; try done.
    destruct (text_decode w data) as [text|]; [|done].
    by rewrite (store_words_texts w _ _ _ (mapM_text_of_str _)).
Qed.

End MoreConstruction.

(** X8. Every outcome of [Anagrams(path)].  A file that cannot be opened
    gives [UnboundLocalError] (raised by [file.close()] in the [finally],
    in place of the error of [gzip.open]).  A gzip file gives the object
    holding its lines when they all decode as UTF-8 and [UnicodeDecodeError]
    when one does not.  After [BadGzipFile] a file that reads as text always
    gives the object holding its lines, and one that does not gives
    [RuntimeError('Unsupported file <path>')].  Any other exception of the
    gzip reader is passed on. *)
Theorem new_outcomes (w : World) (path : string) :
  new w path
  = let self := {| words_file_path := path; anagrams := ∅ |} in
    match file_content w path with
    | None => Raises UnboundLocalError
    | Some data =>
        match gunzip w data with
        | Returns raw =>
            match mapM (decode_utf8 w) (Py.readlines raw) with
            | Some texts => Returns (foldl store_anagram self texts)
            | None => Raises UnicodeDecodeError
            end
        | Raises BadGzipFile =>
            match text_decode w data with
            | Some text => Returns (foldl store_anagram self (Py.readlines text))
            | None => Raises (RuntimeError ("Unsupported file " +:+ path))
            end
        | Raises e => Raises e
        end
    end.
Proof. apply init_cases. Qed.

(** X9. A gzip source whose line [bad] does not decode: the constructor
    fails with [UnicodeDecodeError] after it has stored the lines before
    [bad] in the dictionary it was given, which is left with them. *)
Theorem failure_leaves_stored_lines (w : World) (path data raw : string)
    (pre : list string) (bad : string) (post texts : list string)
    (d : gmap string (list string)) :
  file_content w path = Some data →
  gunzip w data = Returns raw →
  Py.readlines raw = (pre ++ bad :: post)%list →
  mapM (decode_utf8 w) pre = Some texts →
  decode_utf8 w bad = None →
  post_init w {| words_file_path := path; anagrams := d |}
  = (foldl store_anagram {| words_file_path := path; anagrams := d |} texts,
     Raises UnicodeDecodeError) ∧
  init w path d = Raises UnicodeDecodeError.
Proof.
  intros Hfile Hgz Hlines Hpre Hbad.
  unfold init, post_init, read_file. cbn [words_file_path].
  rewrite Hfile, Hgz, Hlines.
  by rewrite (store_words_stops w pre bad post texts _ Hpre Hbad).
Qed.

Lemma failure_leaves_stored_lines_witness :
  post_init Fixture.fixture {| words_file_path := "latin1.txt.gz"; anagrams := ∅ |}
  = (foldl store_anagram {| words_file_path := "latin1.txt.gz"; anagrams := ∅ |}
       ["foobar" +:+ Fixture.nl],
     Raises UnicodeDecodeError) ∧
  init Fixture.fixture "latin1.txt.gz" ∅ = Raises UnicodeDecodeError.
Proof.
  apply (failure_leaves_stored_lines Fixture.fixture "latin1.txt.gz"
           Fixture.latin1_gz Fixture.latin1_txt ["foobar" +:+ Fixture.nl]
           ("caf" +:+ String (ascii_of_nat 233) Fixture.nl) []
           ["foobar" +:+ Fixture.nl] ∅);
    vm_compute; reflexivity.
Defined.

(** X10. A word list read through gzip and the same word list read as plain
    text give the same dictionary: when the lines of the one decode to the
    lines of the other, both constructions succeed and their dictionaries
    are equal. *)
Theorem gzip_and_text_agree (w : World) (gz txt data_gz data_txt raw text : string) :
  file_content w gz = Some data_gz →
  gunzip w data_gz = Returns raw →
  file_content w txt = Some data_txt →
  gunzip w data_txt = Raises BadGzipFile →
  text_decode w data_txt = Some text →
  mapM (decode_utf8 w) (Py.readlines raw) = Some (Py.readlines text) →
  ∃ a b, new w gz = Returns a ∧ new w txt = Returns b ∧
         anagrams a = anagrams b.
Proof.
  intros Hgz Hraw Htxt Hbad Htext Hdec.
  unfold new. rewrite !init_cases. cbn zeta.
  rewrite Hgz, Hraw, Hdec, Htxt, Hbad, Htext.
  eexists _, _. split; [done|]. split; [done|].
  by apply anagrams_foldl_store_ext.
Qed.

Lemma gzip_and_text_agree_witness :
  ∃ a b, new Fixture.fixture "words.txt.gz" = Returns a ∧
         new Fixture.fixture "words.txt" = Returns b ∧
         anagrams a = anagrams b.
Proof.
  apply (gzip_and_text_agree Fixture.fixture "words.txt.gz" "words.txt"
           Fixture.words_gz Fixture.words_txt Fixture.words_txt Fixture.words_txt);
    vm_compute; reflexivity.
Defined.




(** ** Edge cases of the index *)

(** X12. The dictionary of a constructed object is empty exactly when the
    source has no line; every look-up then returns [None]. *)
Theorem empty_source_empty_index (w : World) (path : string)
    (self : Anagrams) (texts : list string) :
  new w path = Returns self →
  source_texts w path = Some texts →
  (anagrams self = ∅ ↔ texts = []) ∧
  (texts = [] → ∀ q, get_anagrams self q = None).
Proof.
  intros Hnew Hsrc.
  assert (texts = [] → anagrams self = ∅) as Hempty.
  { intros ->. apply new_returns in Hnew as (texts' & Hsrc' & ->).
    by assert (texts' = []) as -> by congruence. }
  split; [split; [|exact Hempty]|].
  - intros Hd. destruct texts as [|line texts]; [done|].
    assert (∃ b, get_anagrams self (strip line) = Some b ∧ strip line ∈ b)
      as (b & Hb & _).
    { apply (new_get_elem w path self (line :: texts)); [done..|].
      split; [done|]. rewrite fmap_cons. apply list_elem_of_here. }
    unfold get_anagrams in Hb. by rewrite Hd, lookup_empty in Hb.
  - intros Ht q. unfold get_anagrams. by rewrite (Hempty Ht), lookup_empty.
Qed.

Lemma empty_source_empty_index_witness :
  new Fixture.fixture "words.txt" = Returns fixture_index ∧
  source_texts Fixture.fixture "words.txt" = Some (Py.readlines Fixture.words_txt) ∧
  (anagrams fixture_index = ∅ ↔ Py.readlines Fixture.words_txt = []).
Proof.
  split; [exact fixture_new|]. split; [vm_compute; reflexivity|].
  apply (empty_source_empty_index Fixture.fixture "words.txt" fixture_index
           (Py.readlines Fixture.words_txt)); vm_compute; reflexivity.
Defined.

(** X13. Blank lines are words too: a line that holds nothing but spaces
    and line feeds is stored, and the query [""] returns exactly the stored
    words made of spaces only, the empty word of a blank line among them. *)
Theorem blank_lines_are_stored (w : World) (path : string)
    (self : Anagrams) (texts : list string) (word : string) :
  new w path = Returns self →
  source_texts w path = Some texts →
  ((∃ b, get_anagrams self "" = Some b ∧ word ∈ b) ↔
   word ∈ strip <$> texts ∧
   Forall (λ c, c = Py.SPACE) (list_ascii_of_string word)) ∧
  (single Py.LF ∈ texts → ∃ b, get_anagrams self "" = Some b ∧ "" ∈ b).
Proof.
  intros Hnew Hsrc. split.
  - rewrite (new_get_elem w path self texts "" word Hnew Hsrc).
    change (anagram_hash "") with "". rewrite hash_empty. by split; intros [? ?].
  - intros Hin. apply (new_get_elem w path self texts); [done..|].
    split; [done|]. by apply (list_elem_of_fmap_2 strip) in Hin.
Qed.

Lemma blank_lines_are_stored_witness :
  new Fixture.fixture "words.txt" = Returns fixture_index ∧
  source_texts Fixture.fixture "words.txt" = Some (Py.readlines Fixture.words_txt) ∧
  ((∃ b, get_anagrams fixture_index "" = Some b ∧ "" ∈ b) ↔
   "" ∈ strip <$> Py.readlines Fixture.words_txt ∧
   Forall (λ c, c = Py.SPACE) (list_ascii_of_string "")).
Proof.
  split; [exact fixture_new|]. split; [vm_compute; reflexivity|].
  apply (blank_lines_are_stored Fixture.fixture "words.txt" fixture_index
           (Py.readlines Fixture.words_txt) ""); vm_compute; reflexivity.
Defined.

(** X14. The keys of a constructed object are keys of themselves: a key can
    be used as a query and returns its own bucket; it holds no space and no
    line feed. *)
Theorem keys_are_queries (w : World) (path : string) (self : Anagrams)
    (k : string) (b : list string) :
  new w path = Returns self →
  anagrams self !! k = Some b →
  anagram_hash k = k ∧
  get_anagrams self k = Some b ∧
  (Py.SPACE ∉ list_ascii_of_string k) ∧
  (Py.LF ∉ list_ascii_of_string k).
Proof.
  intros Hnew Hk.
  destruct (new_lookup w path self Hnew) as (texts & _ & Hlook).
  pose proof Hk as Hb. rewrite Hlook in Hb.
  apply entry_Some in Hb as [-> Hne].
  destruct (bucket texts k) as [|word rest] eqn:E; [done|].
  assert (word ∈ bucket texts k) as [Hword _]%list_elem_of_filter
    by (rewrite E; apply list_elem_of_here).
  assert (anagram_hash k = k) as Hfix by (rewrite <- Hword; apply hash_fixed).
  split; [exact Hfix|]. split; [unfold get_anagrams; by rewrite Hfix|]. split.
  - rewrite <- Hword, anagram_hash_chars.
    intros (c & Hc & Hsp & _)%key_chars_elem. symmetry in Hc.
    by apply lower_char_space in Hc.
  - apply (new_inv w keys_LF_free path self);
      [apply keys_LF_free_store | | done | by eexists].
    intros k'. rewrite lookup_empty. by intros [? ?].
Qed.

Lemma keys_are_queries_witness :
  new Fixture.fixture "words.txt" = Returns fixture_index ∧
  anagrams fixture_index !! "--aadnr" = Some ["A-and-R"] ∧
  get_anagrams fixture_index "--aadnr" = Some ["A-and-R"].
Proof.
  split; [exact fixture_new|]. split; [vm_compute; reflexivity|].
  apply (keys_are_queries Fixture.fixture "words.txt" fixture_index
           "--aadnr" ["A-and-R"]); vm_compute; reflexivity.
Defined.

(** X15. The dictionary of a constructed object holds the words of the
    source and nothing else, each as often as the source has it: its buckets
    together are a rearrangement of the lines without their line feeds, so
    it holds as many words as the source has lines. *)
Theorem index_holds_every_line (w : World) (path : string)
    (self : Anagrams) (texts : list string) :
  new w path = Returns self →
  source_texts w path = Some texts →
  all_words (anagrams self) ≡ₚ (strip <$> texts) ∧
  List.length (all_words (anagrams self)) = List.length texts.
Proof.
  intros Hnew Hsrc.
  apply new_returns in Hnew as (texts' & Hsrc' & ->).
  assert (texts' = texts) as -> by congruence.
  assert (all_words (anagrams (foldl store_anagram
            {| words_file_path := path; anagrams := ∅ |} texts))
          ≡ₚ (strip <$> texts)) as Hperm.
  { rewrite all_words_foldl_store. cbn [anagrams].
    unfold all_words. by rewrite map_to_list_empty. }
  split; [exact Hperm|]. by rewrite Hperm, length_fmap.
Qed.

Lemma index_holds_every_line_witness :
  new Fixture.fixture "words.txt" = Returns fixture_index ∧
  source_texts Fixture.fixture "words.txt" = Some (Py.readlines Fixture.words_txt) ∧
  List.length (all_words (anagrams fixture_index)) = 7%nat.
Proof.
  split; [exact fixture_new|]. split; [vm_compute; reflexivity|].
  apply (index_holds_every_line Fixture.fixture "words.txt" fixture_index
           (Py.readlines Fixture.words_txt)); vm_compute; reflexivity.
Defined.


(** ** The tests *)

Section TestFacts.
Context (w : World).

(** The look-ups of the tests on an object built from the seven lines. *)
Lemma seven_lines_lookups path texts :
  source_texts w path = Some texts →
  strip <$> texts = Fixture.lines →
  ∃ self, new w path = Returns self ∧
    get_anagrams self "dictionary" = Some ["dictionary"; "indicatory"] ∧
    get_anagrams self "tea spoon" = Some ["tea spoon"; "teaspoon"] ∧
    get_anagrams self "foobaR" = Some ["FooBar"; "foobar"] ∧
    get_anagrams self "randa--" = Some ["A-and-R"] ∧
    get_anagrams self "fizzbang" = None.
Proof.
  intros Hsrc Hlines. eexists. split; [by apply init_source|].
  unfold get_anagrams. rewrite !lookup_foldl_store. cbn [anagrams].
  unfold bucket. rewrite Hlines, lookup_empty.
  repeat split; vm_compute; reflexivity.
Qed.

End TestFacts.

(** X16. The four tests pass wherever [words.txt] and [words.txt.gz] read as
    the seven lines and [words.txt.bz2] is neither gzip nor text. *)
Theorem tests_pass (w : World) (txt gz : list string) (bz2 : string) :
  source_texts w "words.txt" = Some txt →
  strip <$> txt = Fixture.lines →
  source_texts w "words.txt.gz" = Some gz →
  strip <$> gz = Fixture.lines →
  file_content w "words.txt.bz2" = Some bz2 →
  gunzip w bz2 = Raises BadGzipFile →
  text_decode w bz2 = None →
  test_anagrams w = Passed ∧
  test_gzipped_file w = Passed ∧
  test_bad_file_format_raises_error w = Passed ∧
  test_no_match_returns_none w = Passed.
Proof.
  intros Htxt Hlines Hgz Hglines Hfile Hbad Htext.
  destruct (seven_lines_lookups w _ _ Htxt Hlines)
    as (a & Ha & H1 & H2 & H3 & H4 & H5).
  destruct (seven_lines_lookups w _ _ Hgz Hglines) as (g & Hg & G1 & _).
  unfold test_anagrams, test_gzipped_file, test_bad_file_format_raises_error,
    test_no_match_returns_none.
  rewrite Ha, Hg, H1, H2, H3, H4, H5, G1.
  unfold new. rewrite (init_cases w "words.txt.bz2"). cbn zeta.
  by rewrite Hfile, Hbad, Htext.
Qed.

Lemma tests_pass_witness :
  test_anagrams Fixture.fixture = Passed ∧
  test_gzipped_file Fixture.fixture = Passed ∧
  test_bad_file_format_raises_error Fixture.fixture = Passed ∧
  test_no_match_returns_none Fixture.fixture = Passed.
Proof.
  apply (tests_pass Fixture.fixture (Py.readlines Fixture.words_txt)
           (Py.readlines Fixture.words_txt) Fixture.words_bz2);
    vm_compute; reflexivity.
Defined.

(** X17. What [test_bad_file_format_raises_error] reports, by the file
    [words.txt.bz2].  It passes for every file the gzip reader refuses with
    [BadGzipFile], whether the file then reads as text or not, and for every
    gzip file whose lines decode: a [words.txt.bz2] that is an ordinary word
    list passes the test.  It is in error with [UnboundLocalError] when the
    file cannot be opened, with [UnicodeDecodeError] when a gzip line does
    not decode, and with the exception of the gzip reader otherwise. *)
Theorem bad_file_test_by_source (w : World) :
  test_bad_file_format_raises_error w
  = match file_content w "words.txt.bz2" with
    | None => Errored UnboundLocalError
    | Some data =>
        match gunzip w data with
        | Returns raw =>
            match mapM (decode_utf8 w) (Py.readlines raw) with
            | Some _ => Passed
            | None => Errored UnicodeDecodeError
            end
        | Raises BadGzipFile => Passed
        | Raises (RuntimeError msg) =>
            assertEqual msg "Unsupported file words.txt.bz2" Passed
        | Raises e => Errored e
        end
    end.
Proof.
  unfold test_bad_file_format_raises_error, new.
  rewrite (init_cases w "words.txt.bz2"). cbn zeta.
  destruct (file_content w "words.txt.bz2") as [data|]; [|done].
  destruct (gunzip w data) as [raw|e].
  - by destruct (mapM (decode_utf8 w) (Py.readlines raw)).
  - destruct e; try done.
    by destruct (text_decode w data).
Qed.


(** ** The context manager and multi-line words *)

(** X18. [read_file] with any body.  When the source cannot be read the
    body is not run and the state is untouched; when it can, the body is run
    once on its lines, the state it leaves is the state afterwards, and a
    body that returns makes the [with] statement return. *)
Theorem read_file_runs_body {S : Type} (w : World) (path : string)
    (body : list pyval → S → S * outcome unit) (s : S) :
  (source_lines w path = None →
     ∃ e, read_file w path body s = (s, Raises e)) ∧
  (∀ lines, source_lines w path = Some lines →
     (read_file w path body s).1 = (body lines s).1 ∧
     ((body lines s).2 = Returns tt →
        read_file w path body s = body lines s)).
Proof.
  unfold source_lines, read_file, read_plain.
  destruct (file_content w path) as [data|]; simpl; [|by split; [eexists|]].
  destruct (gunzip w data) as [raw|e].
  - split; [done|]. intros lines [= <-].
    destruct (body _ s) as [s' [[]|e]]; simpl; [done|].
    split; [|done]. destruct e; try done.
    by destruct (text_decode w data).
  - destruct e; simpl; try (split; [by eexists | done]).
    destruct (text_decode w data) as [text|]; simpl; [|by split; [eexists|]].
    split; [done|]. intros lines [= <-].
    destruct (body _ s) as [s' [[]|e]]; simpl; [done|].
    split; [|done]. by destruct e.
Qed.

Lemma read_file_runs_body_witness :
  source_lines Fixture.fixture "words.txt"
    = Some (PyStr <$> Py.readlines Fixture.words_txt) ∧
  (read_file Fixture.fixture "words.txt" (store_words Fixture.fixture)
     {| words_file_path := "words.txt"; anagrams := ∅ |}).1
  = (store_words Fixture.fixture (PyStr <$> Py.readlines Fixture.words_txt)
       {| words_file_path := "words.txt"; anagrams := ∅ |}).1.
Proof.
  split; [vm_compute; reflexivity|].
  apply (read_file_runs_body Fixture.fixture "words.txt"
           (store_words Fixture.fixture)
           {| words_file_path := "words.txt"; anagrams := ∅ |}).
  vm_compute. reflexivity.
Defined.

(** X19. [store_anagram] removes every line feed of its argument, not the
    last one only: a string of several lines is stored as one word, the
    lines joined, and stripping a stripped word changes nothing. *)
Theorem store_joins_lines (self : Anagrams) (a b : string) :
  store_anagram self (a +:+ single Py.LF +:+ b) = store_anagram self (a +:+ b) ∧
  strip (a +:+ single Py.LF +:+ b) = strip a +:+ strip b ∧
  strip (strip a) = strip a.
Proof.
  assert (strip (a +:+ single Py.LF +:+ b) = strip a +:+ strip b) as E1.
  { apply chars_inj. rewrite strip_chars, !chars_app, !filter_app, !strip_chars.
    by replace (filter (λ c, c ≠ Py.LF) (list_ascii_of_string (single Py.LF)))
      with (@nil ascii) by reflexivity. }
  assert (strip (a +:+ b) = strip a +:+ strip b) as E2.
  { apply chars_inj. by rewrite strip_chars, !chars_app, filter_app, !strip_chars. }
  split; [|split; [exact E1 | apply strip_id, strip_LF_free]].
  unfold store_anagram. fold (strip (a +:+ single Py.LF +:+ b)) (strip (a +:+ b)).
  by rewrite E1, E2.
Qed.
